(** * DHT11 platform character driver (solutions/vhdl/lab10/dht11_driver.c)

    A shallow embedding of the driver's four file operations and of its
    probe/remove pair.  The driver itself is sequential code over six
    module-scope variables; every interesting effect is a call into the
    kernel.  The kernel is therefore modelled as a small world record:

    - the driver's globals ([res], [remap_size], [base_addr], [dev],
      [c_dev], [cl]);
    - the kernel's bookkeeping of what the driver currently holds
      ([live]), the chronological list of acquire/release calls
      ([trace]) and the kernel log ([klog]);
    - the environment: how the kernel will answer the next allocation
      requests ([kern]), the contents of the I/O space ([mmio]) and the
      calling process's memory ([umem], [uwritable]).

    Driver functions are computations in the monad [K]; a NULL
    dereference is the only way to leave it ([Oops]). *)

From Stdlib Require Import ZArith List Bool String Lia.
Import ListNotations.
Open Scope Z_scope.

(** ** Constants of the kernel headers

    The driver includes them from <linux/...>; the values are those of
    include/uapi/asm-generic/errno-base.h and include/linux/ioport.h. *)

Module Errno.
Definition ENXIO  : Z := 6.
Definition ENOMEM : Z := 12.
Definition EACCES : Z := 13.
Definition ENODEV : Z := 19.
End Errno.
Import Errno.

Definition IORESOURCE_TYPE_BITS : Z := 0x1f00.
Definition IORESOURCE_MEM       : Z := 0x200.

(** [sizeof(uint32_t)] *)
Definition sizeof_uint32_t : Z := 4.

(** Word size and byte order of the machine the module is built for. *)
Record arch := mk_arch {
  BITS_PER_LONG : Z;
  big_endian    : bool
}.

(** ** Data *)

(** [struct resource], as far as the driver looks at it. *)
Record resource := mk_resource {
  start : Z;
  end_  : Z;
  flags : Z
}.

(** [struct platform_device]: the name and the resource table that the
    device tree supplies. *)
Record platform_device := mk_platform_device {
  name          : string;
  resource_tbl  : list resource
}.

(** [struct inode] and [struct file] are passed to the file operations
    and never inspected by them. *)
Inductive inode := Inode (i_ino : Z).
Inductive file  := File (f_flags : Z).

(** A pointer that may carry an errno ([ERR_PTR]); [Ptr 0] is NULL. *)
Inductive errptr :=
| Ptr (p : Z)
| ErrPtr (e : positive).

Definition IS_ERR (p : errptr) : bool :=
  match p with
  | ErrPtr _ => true
  | Ptr _ => false
  end.

(** [struct cdev]: bound to [dht11_operations] by [cdev_init], given its
    device numbers by [cdev_add]. *)
Record cdev := mk_cdev {
  cdev_ops   : bool;
  cdev_dev   : Z;
  cdev_count : Z
}.

(** The module-scope variables of the driver. *)
Record globals := mk_globals {
  res        : option resource;
  remap_size : Z;
  base_addr  : Z;
  dev        : Z;
  c_dev      : cdev;
  cl         : errptr
}.

(** What a driver can hold from the kernel. *)
Inductive handle :=
| MemRegion (first n : Z)
| IoMapping (vaddr : Z)
| ChrdevRegion (first n : Z)
| CharDev (d n : Z)
| DevClass (c : errptr)
| DevNode (c : errptr) (d : Z).

Inductive handle_kind :=
| KMemRegion | KIoMapping | KChrdevRegion | KCharDev | KDevClass | KDevNode.

Definition kind_of (h : handle) : handle_kind :=
  match h with
  | MemRegion _ _ => KMemRegion
  | IoMapping _ => KIoMapping
  | ChrdevRegion _ _ => KChrdevRegion
  | CharDev _ _ => KCharDev
  | DevClass _ => KDevClass
  | DevNode _ _ => KDevNode
  end.

Definition errptr_eqb (a b : errptr) : bool :=
  match a, b with
  | Ptr p, Ptr q => p =? q
  | ErrPtr e, ErrPtr f => Pos.eqb e f
  | _, _ => false
  end.

Definition handle_eqb (a b : handle) : bool :=
  match a, b with
  | MemRegion s n, MemRegion s' n' => (s =? s') && (n =? n')
  | IoMapping v, IoMapping v' => v =? v'
  | ChrdevRegion d n, ChrdevRegion d' n' => (d =? d') && (n =? n')
  | CharDev d n, CharDev d' n' => (d =? d') && (n =? n')
  | DevClass c, DevClass c' => errptr_eqb c c'
  | DevNode c d, DevNode c' d' => errptr_eqb c c' && (d =? d')
  | _, _ => false
  end.

Inductive event :=
| Acquire (h : handle)
| Release (h : handle).

(** Kernel-side bookkeeping. *)
Record ksys := mk_ksys {
  live  : list handle;
  trace : list event;
  klog  : list string
}.

(** How the kernel answers the driver's requests, each by its contract:
    - [request_mem_region]: a region or NULL;
    - [ioremap]: a (non-null) virtual address or NULL;
    - [alloc_chrdev_region]: 0 with a device number, or a negated errno;
    - [cdev_add]: 0 or a negated errno;
    - [class_create], [device_create]: a (non-null) object or an
      [ERR_PTR] of an errno. *)
Record outcomes := mk_outcomes {
  on_request_mem_region  : bool;
  on_ioremap             : option positive;
  on_alloc_chrdev_region : Z + positive;
  on_cdev_add            : option positive;
  on_class_create        : positive + positive;
  on_device_create       : positive + positive
}.

Definition ptr_of (a : positive + positive) : errptr :=
  match a with
  | inl p => Ptr (Z.pos p)
  | inr e => ErrPtr e
  end.

Record environment := mk_environment {
  kern      : outcomes;
  mmio      : Z -> Z;
  umem      : Z -> Z;
  uwritable : Z -> bool
}.

Record world := mk_world {
  drv : globals;
  sys : ksys;
  env : environment
}.

(** ** The monad of kernel code *)

Inductive result (A : Type) : Type :=
| Oops
| Ok (a : A) (w : world).
Arguments Oops {A}.
Arguments Ok {A} a w.

Definition K (A : Type) : Type := world -> result A.

Definition Return {A} (a : A) : K A := fun w => Ok a w.

Definition Bind {A B} (m : K A) (f : A -> K B) : K B :=
  fun w =>
    match m w with
    | Oops => Oops
    | Ok a w' => f a w'
    end.

Declare Scope kernel_scope.
Delimit Scope kernel_scope with K.
Notation "x <- m ;; k" := (Bind m (fun x => k))
  (at level 61, m at next level, right associativity) : kernel_scope.
Notation "m ;; k" := (Bind m (fun _ => k))
  (at level 61, right associativity) : kernel_scope.
Open Scope kernel_scope.

Definition retval {A} (r : result A) : option A :=
  match r with
  | Oops => None
  | Ok a _ => Some a
  end.

(** Reading and writing the globals. *)

Definition get {A} (f : globals -> A) : K A := fun w => Ok (f (drv w)) w.

Definition update_drv (f : globals -> globals) : K unit :=
  fun w => Ok tt (mk_world (f (drv w)) (sys w) (env w)).

Definition put_res (r : option resource) : K unit :=
  update_drv (fun g =>
    mk_globals r (remap_size g) (base_addr g) (dev g) (c_dev g) (cl g)).

Definition put_remap_size (n : Z) : K unit :=
  update_drv (fun g =>
    mk_globals (res g) n (base_addr g) (dev g) (c_dev g) (cl g)).

Definition put_base_addr (a : Z) : K unit :=
  update_drv (fun g =>
    mk_globals (res g) (remap_size g) a (dev g) (c_dev g) (cl g)).

Definition put_dev (d : Z) : K unit :=
  update_drv (fun g =>
    mk_globals (res g) (remap_size g) (base_addr g) d (c_dev g) (cl g)).

Definition put_c_dev (c : cdev) : K unit :=
  update_drv (fun g =>
    mk_globals (res g) (remap_size g) (base_addr g) (dev g) c (cl g)).

Definition put_cl (c : errptr) : K unit :=
  update_drv (fun g =>
    mk_globals (res g) (remap_size g) (base_addr g) (dev g) (c_dev g) c).

(** [res->...]: a NULL [res] faults. *)
Definition deref_res : K resource :=
  fun w =>
    match res (drv w) with
    | None => Oops
    | Some r => Ok r w
    end.

(** ** The kernel interface, by its documented contract *)

Fixpoint remove_first (h : handle) (l : list handle) : list handle :=
  match l with
  | [] => []
  | x :: l' => if handle_eqb h x then l' else x :: remove_first h l'
  end.

Definition acquire (h : handle) : K unit :=
  fun w =>
    Ok tt (mk_world (drv w)
             (mk_ksys (h :: live (sys w))
                      (trace (sys w) ++ [Acquire h])
                      (klog (sys w)))
             (env w)).

Definition release (h : handle) : K unit :=
  fun w =>
    Ok tt (mk_world (drv w)
             (mk_ksys (remove_first h (live (sys w)))
                      (trace (sys w) ++ [Release h])
                      (klog (sys w)))
             (env w)).

Definition holds (w : world) (h : handle) : bool :=
  existsb (handle_eqb h) (live (sys w)).

(** [printk] and [dev_err]: one line of kernel log (format arguments are
    not rendered). *)
Definition printk (msg : string) : K unit :=
  fun w =>
    Ok tt (mk_world (drv w)
             (mk_ksys (live (sys w)) (trace (sys w)) (klog (sys w) ++ [msg]))
             (env w)).

Definition dev_err (pdev : platform_device) (msg : string) : K unit :=
  printk msg.

(** [rmb()]: orders loads; nothing to do in a sequential model. *)
Definition rmb : K unit := Return tt.

(** [ioread32]: one 32-bit load from I/O space. *)
Definition ioread32 (addr : Z) : K Z :=
  fun w => Ok (mmio (env w) addr mod 2 ^ 32) w.

(** The bytes of a [uint32_t] object in memory. *)
Definition u32_bytes (A : arch) (v : Z) : list Z :=
  let le := [v mod 256; (v / 256) mod 256; (v / 65536) mod 256; (v / 16777216) mod 256] in
  if big_endian A then rev le else le.

Definition store (m : Z -> Z) (a b : Z) : Z -> Z :=
  fun x => if x =? a then b else m x.

(** Copies byte by byte until the first address the caller may not
    write; answers the number of bytes left. *)
Fixpoint copy_out (wr : Z -> bool) (to : Z) (bs : list Z) (m : Z -> Z)
  : Z * (Z -> Z) :=
  match bs with
  | [] => (0, m)
  | b :: bs' =>
      if wr to then copy_out wr (to + 1) bs' (store m to b)
      else (Z.of_nat (List.length bs), m)
  end.

(** [copy_to_user(to, from, n)]: returns the number of bytes that could
    not be copied, 0 on success. *)
Definition copy_to_user (to : Z) (from : list Z) (n : Z) : K Z :=
  fun w =>
    let '(uncopied, m) :=
      copy_out (uwritable (env w)) to (firstn (Z.to_nat n) from) (umem (env w)) in
    Ok uncopied
       (mk_world (drv w) (sys w)
          (mk_environment (kern (env w)) (mmio (env w)) m (uwritable (env w)))).

(** [platform_get_resource(pdev, type, num)]: the [num]-th entry of the
    resource table whose type bits are [type], NULL when there is none. *)
Definition resource_type (r : resource) : Z :=
  Z.land (flags r) IORESOURCE_TYPE_BITS.

Fixpoint find_resource (rs : list resource) (type : Z) (num : nat)
  : option resource :=
  match rs with
  | [] => None
  | r :: rs' =>
      if resource_type r =? type then
        match num with
        | O => Some r
        | S num' => find_resource rs' type num'
        end
      else find_resource rs' type num
  end.

Definition platform_get_resource (pdev : platform_device) (type : Z) (num : nat)
  : K (option resource) :=
  Return (find_resource (resource_tbl pdev) type num).

(** [request_mem_region]: non-NULL when the range could be reserved. *)
Definition request_mem_region (first n : Z) (nm : string) : K bool :=
  fun w =>
    if on_request_mem_region (kern (env w)) then
      (acquire (MemRegion first n) ;; Return true) w
    else Ok false w.

Definition release_mem_region (first n : Z) : K unit :=
  release (MemRegion first n).

(** [ioremap]: the virtual address of the mapping, NULL (0) on failure. *)
Definition ioremap (offset size : Z) : K Z :=
  fun w =>
    match on_ioremap (kern (env w)) with
    | None => Ok 0 w
    | Some p => (acquire (IoMapping (Z.pos p)) ;; Return (Z.pos p)) w
    end.

Definition iounmap (addr : Z) : K unit :=
  release (IoMapping addr).

(** [alloc_chrdev_region(&d, baseminor, count, name)]: 0 and the first
    device number stored through the pointer, or a negated errno and
    the pointee untouched.  The result carries the pointee. *)
Definition alloc_chrdev_region (d : Z) (baseminor count : Z) (nm : string)
  : K (Z * Z) :=
  fun w =>
    match on_alloc_chrdev_region (kern (env w)) with
    | inl first => (acquire (ChrdevRegion first count) ;; Return (0, first)) w
    | inr e => Ok (- Z.pos e, d) w
    end.

Definition unregister_chrdev_region (from count : Z) : K unit :=
  release (ChrdevRegion from count).

(** [cdev_init(&p, &dht11_operations)]: clears the structure and binds
    the operations. *)
Definition cdev_init (p : cdev) : cdev :=
  mk_cdev true 0 0.

(** [cdev_add(&p, d, count)]: records the numbers in the structure, then
    makes the device live; 0 or a negated errno.  The result carries the
    structure. *)
Definition cdev_add (p : cdev) (d count : Z) : K (Z * cdev) :=
  fun w =>
    let p' := mk_cdev (cdev_ops p) d count in
    match on_cdev_add (kern (env w)) with
    | None => (acquire (CharDev d count) ;; Return (0, p')) w
    | Some e => Ok (- Z.pos e, p') w
    end.

Definition cdev_del (p : cdev) : K unit :=
  release (CharDev (cdev_dev p) (cdev_count p)).

(** [class_create]: the class or an [ERR_PTR]. *)
Definition class_create (nm : string) : K errptr :=
  fun w =>
    let c := ptr_of (on_class_create (kern (env w))) in
    if IS_ERR c then Ok c w
    else (acquire (DevClass c) ;; Return c) w.

(** [class_destroy]: returns at once on NULL and on an [ERR_PTR]. *)
Definition class_destroy (c : errptr) : K unit :=
  match c with
  | Ptr p => if p =? 0 then Return tt else release (DevClass c)
  | ErrPtr _ => Return tt
  end.

(** [device_create(c, NULL, d, NULL, name)]: the device or an [ERR_PTR]. *)
Definition device_create (c : errptr) (d : Z) (nm : string) : K errptr :=
  fun w =>
    let r := ptr_of (on_device_create (kern (env w))) in
    if IS_ERR r then Ok r w
    else (acquire (DevNode c d) ;; Return r) w.

Definition device_destroy (c : errptr) (d : Z) : K unit :=
  release (DevNode c d).

(** ** File operations *)

Section Driver.

Variable A : arch.

(** called on device open. does nothing. return 0 (no error). *)
Definition dht11_open (inode_ : inode) (fp : file) : K Z :=
  Return 0.

(** called on device close. does nothing. return 0 (no error). *)
Definition dht11_close (inode_ : inode) (fp : file) : K Z :=
  Return 0.

(** called on device read. read 4 bytes (data and status).  The result
    is the returned [ssize_t] and the value of [*f_pos] on return. *)
Definition dht11_read (fp : file) (buf : Z) (count : Z) (f_pos : Z)
  : K (Z * Z) :=
  rmb ;;
  b <- get base_addr ;;
  data <- ioread32 b ;;
  uncopied <- copy_to_user buf (u32_bytes A data) sizeof_uint32_t ;;
  if negb (uncopied =? 0) then
    Return (- EACCES, f_pos)
  else
    Return (sizeof_uint32_t, f_pos).

(** ** Removal and probing *)

(** Conversion to [unsigned long]. *)
Definition ulong (v : Z) : Z := v mod 2 ^ BITS_PER_LONG A.

(** called when removing module *)
Definition dht11_remove (pdev : platform_device) : K Z :=
  c <- get cl ;;
  d <- get dev ;;
  device_destroy c d ;;
  c <- get cl ;;
  class_destroy c ;;
  p <- get c_dev ;;
  cdev_del p ;;
  d <- get dev ;;
  unregister_chrdev_region d 1 ;;
  b <- get base_addr ;;
  iounmap b ;;
  r <- deref_res ;;
  n <- get remap_size ;;
  release_mem_region (start r) n ;;
  printk "DHT11 module removed." ;;
  printk "DHT11 YOUR BYE MESSAGE" ;;
  Return 0.

(** The labels at the end of [dht11_probe]; each falls through to the
    next. *)
Definition err_release_region : K unit :=
  r <- deref_res ;;
  n <- get remap_size ;;
  release_mem_region (start r) n.

Definition err_unmap : K unit :=
  b <- get base_addr ;;
  iounmap b ;;
  err_release_region.

Definition err_unregister : K unit :=
  d <- get dev ;;
  unregister_chrdev_region d 1 ;;
  err_unmap.

Definition err_delete_cdev : K unit :=
  p <- get c_dev ;;
  cdev_del p ;;
  err_unregister.

Definition err_class_destroy : K unit :=
  c <- get cl ;;
  class_destroy c ;;
  err_delete_cdev.

(** This function is called when the module is linked to the kernel. *)
Definition dht11_probe (pdev : platform_device) : K Z :=
  let ret := 0 in
  r <- platform_get_resource pdev IORESOURCE_MEM 0 ;;
  put_res r ;;
  match r with
  | None =>
      dev_err pdev "no memory ressource found" ;;
      Return (- ENODEV)
  | Some _ =>
      r <- deref_res ;;
      put_remap_size (ulong (end_ r - start r + 1)) ;;
      n <- get remap_size ;;
      reserved <- request_mem_region (start r) n (name pdev) ;;
      if negb reserved then
        dev_err pdev "could not reserve IO address range" ;;
        Return (- ENXIO)
      else
        b <- ioremap (start r) n ;;
        put_base_addr b ;;
        if b =? 0 then
          dev_err pdev "could not ioremap memory" ;;
          let ret := - ENOMEM in
          err_release_region ;;
          Return ret
        else
          d <- get dev ;;
          rd <- alloc_chrdev_region d 0 1 "dht11" ;;
          put_dev (snd rd) ;;
          let ret := fst rd in
          if negb (ret =? 0) then
            dev_err pdev "could not allocate device major number" ;;
            err_unmap ;;
            Return ret
          else
            p <- get c_dev ;;
            put_c_dev (cdev_init p) ;;
            p <- get c_dev ;;
            d <- get dev ;;
            rp <- cdev_add p d 1 ;;
            put_c_dev (snd rp) ;;
            let ret := fst rp in
            if ret <? 0 then
              dev_err pdev "couldn't add the cdev structure" ;;
              err_unregister ;;
              Return ret
            else
              c <- class_create "dht11" ;;
              put_cl c ;;
              if IS_ERR c then
                dev_err pdev "could not create device class" ;;
                err_delete_cdev ;;
                Return ret
              else
                c <- get cl ;;
                d <- get dev ;;
                dev_ret <- device_create c d "dht11" ;;
                if IS_ERR dev_ret then
                  dev_err pdev "error in device create" ;;
                  err_class_destroy ;;
                  Return ret
                else
                  printk "DHT11 module loaded." ;;
                  printk "DHT11 mapped at virtual address" ;;
                  printk "DHT11 YOUR HELLO MESSAGE" ;;
                  Return 0
  end.

End Driver.

(** ** Concrete machines and scenarios *)

(** A 32-bit little-endian machine. *)
Definition zynq : arch := mk_arch 32 false.

(** A device-tree node with one 4 KiB register window. *)
Definition dht11_pdev : platform_device :=
  mk_platform_device "40000000.dht11"
    [mk_resource 0x40000000 0x40000fff IORESOURCE_MEM].

(** An interrupt line ([IORESOURCE_IRQ]) and a register window, as they
    stand in the resource table of a node with both properties. *)
Definition irq_line : resource := mk_resource 61 61 0x400.
Definition reg_window : resource :=
  mk_resource 0x40000000 0x40000fff IORESOURCE_MEM.

(** A device-tree node without any [reg] property. *)
Definition bare_pdev : platform_device :=
  mk_platform_device "dht11" [].

(** The kernel grants everything. *)
Definition cooperative : outcomes :=
  mk_outcomes true (Some 0xf0940000%positive) (inl 0x0f400000) None
    (inl 0xc1234000%positive) (inl 0xc1235000%positive).

(** The kernel grants everything up to the character device, then
    [class_create] answers [ERR_PTR(-ENOMEM)]. *)
Definition class_refused : outcomes :=
  mk_outcomes true (Some 0xf0940000%positive) (inl 0x0f400000) None
    (inr 12%positive) (inl 0xc1235000%positive).

(** ... or [device_create] answers [ERR_PTR(-ENOMEM)]. *)
Definition device_refused : outcomes :=
  mk_outcomes true (Some 0xf0940000%positive) (inl 0x0f400000) None
    (inl 0xc1234000%positive) (inr 12%positive).

(** [ioremap] finds no room for the mapping. *)
Definition ioremap_refused : outcomes :=
  mk_outcomes true None (inl 0x0f400000) None
    (inl 0xc1234000%positive) (inl 0xc1235000%positive).

Definition boot_globals : globals :=
  mk_globals None 0 0 0 (mk_cdev false 0 0) (Ptr 0).

(** The state when the module has just been loaded: zeroed globals,
    nothing held, a register that reads [reg] everywhere and a caller
    whose memory is writable exactly where [wr] says. *)
Definition boot (k : outcomes) (reg : Z) (wr : Z -> bool) : world :=
  mk_world boot_globals (mk_ksys [] [] [])
    (mk_environment k (fun _ => reg) (fun _ => 0) wr).

(** A caller whose buffer is not writable at all, and one whose buffer
    is. *)
Definition no_access : Z -> bool := fun _ => false.
Definition full_access : Z -> bool := fun _ => true.

(** The world a computation ends in ([w] itself after a fault). *)
Definition world_after {A} (m : K A) (w : world) : world :=
  match m w with
  | Oops => w
  | Ok _ w' => w'
  end.

(** ** Vocabulary of the properties *)

(** The acquisition steps of [dht11_probe], in program order. *)
Inductive step :=
| StepResource   (* platform_get_resource *)
| StepRegion     (* request_mem_region *)
| StepIoremap    (* ioremap *)
| StepChrdev     (* alloc_chrdev_region *)
| StepCdev       (* cdev_add *)
| StepClass      (* class_create *)
| StepDevice.    (* device_create *)

(** The first step that the kernel will refuse, read off the tests of
    [dht11_probe]; [None] when every step goes through. *)
Definition failing_step (pdev : platform_device) (w : world) : option step :=
  let k := kern (env w) in
  match find_resource (resource_tbl pdev) IORESOURCE_MEM 0 with
  | None => Some StepResource
  | Some _ =>
      if negb (on_request_mem_region k) then Some StepRegion
      else match on_ioremap k, on_alloc_chrdev_region k, on_cdev_add k with
           | None, _, _ => Some StepIoremap
           | Some _, inr _, _ => Some StepChrdev
           | Some _, inl _, Some _ => Some StepCdev
           | Some _, inl _, None =>
               if IS_ERR (ptr_of (on_class_create k)) then Some StepClass
               else if IS_ERR (ptr_of (on_device_create k)) then Some StepDevice
               else None
           end
  end.

(** What a complete probe holds, oldest first. *)
Definition acquisition_order : list handle_kind :=
  [KMemRegion; KIoMapping; KChrdevRegion; KCharDev; KDevClass; KDevNode].

(** What [dht11_remove] lets go of, in the order of its calls. *)
Definition release_order : list handle_kind :=
  [KDevNode; KDevClass; KCharDev; KChrdevRegion; KIoMapping; KMemRegion].

(** How many things are held when a step is reached. *)
Definition acquired_before (st : step) : nat :=
  match st with
  | StepResource => 0
  | StepRegion => 0
  | StepIoremap => 1
  | StepChrdev => 2
  | StepCdev => 3
  | StepClass => 4
  | StepDevice => 5
  end.

Fixpoint acquired_of (es : list event) : list handle :=
  match es with
  | [] => []
  | Acquire h :: es' => h :: acquired_of es'
  | Release _ :: es' => acquired_of es'
  end.

Fixpoint released_of (es : list event) : list handle :=
  match es with
  | [] => []
  | Acquire _ :: es' => released_of es'
  | Release h :: es' => h :: released_of es'
  end.

(** [n] consecutive addresses from [a]. *)
Fixpoint addresses (a : Z) (n : nat) : list Z :=
  match n with
  | O => []
  | S n' => a :: addresses (a + 1) n'
  end.

(** The caller may write all four bytes at [buf]. *)
Definition user_copy_ok (w : world) (buf : Z) : bool :=
  forallb (uwritable (env w)) (addresses buf 4).

(** The four bytes the caller finds at [buf]. *)
Definition delivered (w : world) (buf : Z) : list Z :=
  map (umem (env w)) (addresses buf 4).

(** The register the driver reads. *)
Definition register (w : world) : Z :=
  mmio (env w) (base_addr (drv w)) mod 2 ^ 32.

(** The mapping behind [base_addr] is in place. *)
Definition mapping_valid (w : world) : bool :=
  holds w (IoMapping (base_addr (drv w))).

(** The device node exists. *)
Definition node_exists (w : world) : bool :=
  existsb (fun h => match h with DevNode _ _ => true | _ => false end)
          (live (sys w)).

(** The caller's view of four bytes as a [uint32_t]. *)
Definition u32_of_bytes (A : arch) (bs : list Z) : Z :=
  match (if big_endian A then rev bs else bs) with
  | [b0; b1; b2; b3] => b0 + 256 * b1 + 65536 * b2 + 16777216 * b3
  | _ => 0
  end.


(** The driver core binding the device and unbinding it again: remove
    is called only for a probe that returned 0. *)
Definition bind_unbind (A : arch) (pdev : platform_device) : K Z :=
  r <- dht11_probe A pdev ;;
  if r =? 0 then dht11_remove pdev else Return r.

(** [n] rounds of binding and unbinding, stopping at the first error. *)
Fixpoint cycles (A : arch) (pdev : platform_device) (n : nat) : K Z :=
  match n with
  | O => Return 0
  | S n' =>
      r <- bind_unbind A pdev ;;
      if r =? 0 then cycles A pdev n' else Return r
  end.

(** ** Proof automation *)

#[local] Arguments remove_first : simpl never.

(** Splits a world down to the kernel's answers, so that every test of
    the driver computes. *)
Ltac open_world w :=
  let g := fresh "g" in
  let s := fresh "s" in
  let e := fresh "e" in
  let k := fresh "k" in
  destruct w as [g s e]; destruct e as [k ? ? ?];
  destruct k as [rq io al ca cc dc]; destruct s as [lv tr lg].

(** Runs the driver on an opened world. *)
Ltac run_driver :=
  cbv [dht11_probe dht11_remove
       err_class_destroy err_delete_cdev err_unregister err_unmap
       err_release_region
       platform_get_resource request_mem_region release_mem_region
       ioremap iounmap alloc_chrdev_region unregister_chrdev_region
       cdev_init cdev_add cdev_del class_create class_destroy
       device_create device_destroy dev_err printk
       acquire release get update_drv deref_res
       put_res put_remap_size put_base_addr put_dev put_c_dev put_cl
       Bind Return failing_step];
  simpl.

Ltac flatten_trace := repeat rewrite <- app_assoc; simpl.

(** ** Helper lemmas *)

Lemma errptr_eqb_refl (c : errptr) : errptr_eqb c c = true.
Proof.
  destruct c; simpl.
  - apply Z.eqb_refl.
  - apply Pos.eqb_refl.
Qed.

Lemma handle_eqb_refl (h : handle) : handle_eqb h h = true.
Proof.
  destruct h; simpl;
    rewrite ?Z.eqb_refl, ?errptr_eqb_refl; reflexivity.
Qed.

Lemma remove_first_head (h : handle) (l : list handle) :
  remove_first h (h :: l) = l.
Proof.
  change (remove_first h (h :: l))
    with (if handle_eqb h h then l else h :: remove_first h l).
  now rewrite handle_eqb_refl.
Qed.

Lemma u32_bytes_length (A : arch) (v : Z) : List.length (u32_bytes A v) = 4%nat.
Proof.
  unfold u32_bytes. destruct (big_endian A); reflexivity.
Qed.

Lemma firstn_u32_bytes (A : arch) (v : Z) :
  firstn (Z.to_nat sizeof_uint32_t) (u32_bytes A v) = u32_bytes A v.
Proof.
  unfold u32_bytes. destruct (big_endian A); reflexivity.
Qed.

(** [copy_out] never touches memory below its destination. *)
Lemma copy_out_below (wr : Z -> bool) (bs : list Z) :
  forall to m x, x < to -> snd (copy_out wr to bs m) x = m x.
Proof.
  induction bs as [|b bs IH]; intros to m x Hx; simpl.
  - reflexivity.
  - destruct (wr to); simpl; [|reflexivity].
    rewrite IH by lia. unfold store.
    destruct (x =? to) eqn:E; [apply Z.eqb_eq in E; lia | reflexivity].
Qed.

(** ... nor at or above its end. *)
Lemma copy_out_above (wr : Z -> bool) (bs : list Z) :
  forall to m x, to + Z.of_nat (List.length bs) <= x ->
    snd (copy_out wr to bs m) x = m x.
Proof.
  induction bs as [|b bs IH]; intros to m x Hx; simpl.
  - reflexivity.
  - destruct (wr to); simpl; [|reflexivity].
    simpl List.length in Hx.
    rewrite IH by lia. unfold store.
    destruct (x =? to) eqn:E; [apply Z.eqb_eq in E; lia | reflexivity].
Qed.

(** It reports 0 exactly when every destination byte is writable. *)
Lemma copy_out_complete (wr : Z -> bool) (bs : list Z) :
  forall to m,
    fst (copy_out wr to bs m) = 0 <->
    forallb wr (addresses to (List.length bs)) = true.
Proof.
  induction bs as [|b bs IH]; intros to m; simpl.
  - tauto.
  - destruct (wr to); simpl.
    + apply IH.
    + split; [lia | discriminate].
Qed.

(** What it reports is a byte count of the source. *)
Lemma copy_out_range (wr : Z -> bool) (bs : list Z) :
  forall to m, 0 <= fst (copy_out wr to bs m) <= Z.of_nat (List.length bs).
Proof.
  induction bs as [|b bs IH]; intros to m; simpl.
  - lia.
  - destruct (wr to); simpl.
    + specialize (IH (to + 1) (store m to b)). lia.
    + lia.
Qed.

(** When it succeeds the destination holds the source. *)
Lemma copy_out_content (wr : Z -> bool) (bs : list Z) :
  forall to m,
    forallb wr (addresses to (List.length bs)) = true ->
    map (snd (copy_out wr to bs m)) (addresses to (List.length bs)) = bs.
Proof.
  induction bs as [|b bs IH]; intros to m H; simpl in *.
  - reflexivity.
  - apply andb_true_iff in H. destruct H as [Hto Hrest].
    rewrite Hto. f_equal.
    + rewrite copy_out_below by lia. unfold store. now rewrite Z.eqb_refl.
    + now apply IH.
Qed.

(** ** The file operations *)

(** [dht11_read] in one equation: one load, one copy, and a result that
    only depends on whether the copy was complete. *)
Lemma dht11_read_unfold (A : arch) (fp : file) (buf count f_pos : Z) (w : world) :
  dht11_read A fp buf count f_pos w =
  let c := copy_out (uwritable (env w)) buf (u32_bytes A (register w))
                    (umem (env w)) in
  Ok (if fst c =? 0 then sizeof_uint32_t else - EACCES, f_pos)
     (mk_world (drv w) (sys w)
        (mk_environment (kern (env w)) (mmio (env w)) (snd c)
                        (uwritable (env w)))).
Proof.
  unfold dht11_read, Bind, rmb, Return, get, ioread32, copy_to_user, register.
  rewrite firstn_u32_bytes.
  destruct (copy_out _ _ _ _) as [n m]; simpl.
  destruct (n =? 0); reflexivity.
Qed.

Lemma copy_complete_iff (A : arch) (w : world) (buf : Z) :
  (fst (copy_out (uwritable (env w)) buf (u32_bytes A (register w))
                 (umem (env w))) =? 0) = user_copy_ok w buf.
Proof.
  unfold user_copy_ok.
  pose proof (copy_out_complete (uwritable (env w)) (u32_bytes A (register w))
                buf (umem (env w))) as H.
  rewrite u32_bytes_length in H.
  destruct (forallb _ _).
  - apply Z.eqb_eq. now apply H.
  - apply Z.eqb_neq. intro E. apply H in E. discriminate.
Qed.

(** C4: every read returns, and what it returns is either exactly 4 (the
    copy to the caller went through) or the negative -EACCES (it did
    not); never 0 and never a short count between 0 and 4. *)
Theorem read_returns_four_or_error
  (A : arch) (fp : file) (buf count f_pos : Z) (w : world) :
  exists r p w',
    dht11_read A fp buf count f_pos w = Ok (r, p) w' /\
    (r = 4 <-> user_copy_ok w buf = true) /\
    (r = - EACCES <-> user_copy_ok w buf = false) /\
    (r = 4 \/ r < 0) /\
    r <> 0 /\
    ~ (0 < r < 4).
Proof.
  rewrite dht11_read_unfold. cbv zeta. rewrite copy_complete_iff.
  eexists _, _, _. split; [reflexivity|].
  unfold sizeof_uint32_t, EACCES.
  destruct (user_copy_ok w buf); repeat split; intros; try lia; congruence.
Qed.

(** C6: when the copy to the caller's buffer fails, read returns -EACCES
    and leaves the driver's variables, everything the driver holds, the
    call trace, the kernel log and the device untouched. *)
Theorem failed_read_is_EACCES_and_changes_nothing
  (A : arch) (fp : file) (buf count f_pos : Z) (w : world) :
  user_copy_ok w buf = false ->
  exists w',
    dht11_read A fp buf count f_pos w = Ok (- EACCES, f_pos) w' /\
    drv w' = drv w /\
    sys w' = sys w /\
    kern (env w') = kern (env w) /\
    mmio (env w') = mmio (env w).
Proof.
  intro H. rewrite dht11_read_unfold. cbv zeta.
  rewrite copy_complete_iff, H.
  eexists. repeat split.
Qed.

(** C8: two reads that see the same register value and whose copies both
    go through hand the same four bytes to their callers, whatever the
    buffers, counts and positions. *)
Theorem reads_of_a_static_register_agree
  (A : arch) (fp1 fp2 : file) (buf1 count1 pos1 buf2 count2 pos2 : Z)
  (w1 w2 : world) :
  register w2 = register w1 ->
  user_copy_ok w1 buf1 = true ->
  user_copy_ok w2 buf2 = true ->
  exists w1' w2',
    dht11_read A fp1 buf1 count1 pos1 w1 = Ok (4, pos1) w1' /\
    dht11_read A fp2 buf2 count2 pos2 w2 = Ok (4, pos2) w2' /\
    delivered w1' buf1 = delivered w2' buf2 /\
    List.length (delivered w1' buf1) = 4%nat.
Proof.
  intros Hreg H1 H2. rewrite !dht11_read_unfold. cbv zeta.
  rewrite !copy_complete_iff, H1, H2.
  eexists _, _. split; [reflexivity|]. split; [reflexivity|].
  unfold delivered, user_copy_ok in *. simpl env. simpl umem.
  pose proof (copy_out_content (uwritable (env w1)) (u32_bytes A (register w1))
                buf1 (umem (env w1))) as C1.
  pose proof (copy_out_content (uwritable (env w2)) (u32_bytes A (register w2))
                buf2 (umem (env w2))) as C2.
  rewrite u32_bytes_length in C1, C2.
  rewrite (C1 H1), (C2 H2), Hreg.
  split; [reflexivity | apply u32_bytes_length].
Qed.

Lemma failed_read_witness :
  exists w',
    dht11_read zynq (File 0) 100 4 0 (boot cooperative 0x2a19 no_access)
      = Ok (- EACCES, 0) w' /\
    drv w' = drv (boot cooperative 0x2a19 no_access) /\
    sys w' = sys (boot cooperative 0x2a19 no_access) /\
    kern (env w') = kern (env (boot cooperative 0x2a19 no_access)) /\
    mmio (env w') = mmio (env (boot cooperative 0x2a19 no_access)).
Proof.
  exact (failed_read_is_EACCES_and_changes_nothing zynq (File 0) 100 4 0
           (boot cooperative 0x2a19 no_access) eq_refl).
Defined.

Lemma static_register_witness :
  exists w1' w2',
    dht11_read zynq (File 0) 100 4 0 (boot cooperative 0x2a19 full_access)
      = Ok (4, 0) w1' /\
    dht11_read zynq (File 0) 100 4 0
      (world_after (dht11_read zynq (File 0) 100 4 0)
                   (boot cooperative 0x2a19 full_access))
      = Ok (4, 0) w2' /\
    delivered w1' 100 = delivered w2' 100 /\
    List.length (delivered w1' 100) = 4%nat.
Proof.
  exact (reads_of_a_static_register_agree zynq (File 0) (File 0)
           100 4 0 100 4 0
           (boot cooperative 0x2a19 full_access)
           (world_after (dht11_read zynq (File 0) 100 4 0)
                        (boot cooperative 0x2a19 full_access))
           eq_refl eq_refl eq_refl).
Defined.

(** A read changes neither the driver's variables nor the device. *)
Lemma read_preserves_register
  (A : arch) (fp : file) (buf count f_pos : Z) (w w' : world) (r : Z * Z) :
  dht11_read A fp buf count f_pos w = Ok r w' ->
  drv w' = drv w /\ sys w' = sys w /\ register w' = register w /\
  uwritable (env w') = uwritable (env w).
Proof.
  rewrite dht11_read_unfold. cbv zeta. intro H.
  inversion H; subst. repeat split.
Qed.

(** C9: the count and the position play no part in a read: with any two
    counts and positions the same register value is copied and the same
    value returned, the position comes back as it went in, the return
    value is never 0, and a read whose copy goes through writes the four
    bytes of the register at [buf], nothing outside them, and returns
    4. *)
Theorem read_ignores_count_and_position
  (A : arch) (fp : file) (buf count count' f_pos f_pos' : Z) (w : world) :
  exists r w',
    dht11_read A fp buf count f_pos w = Ok (r, f_pos) w' /\
    dht11_read A fp buf count' f_pos' w = Ok (r, f_pos') w' /\
    r <> 0 /\
    (forall x, x < buf \/ buf + 4 <= x -> umem (env w') x = umem (env w) x) /\
    (user_copy_ok w buf = true ->
       r = 4 /\ delivered w' buf = u32_bytes A (register w) /\
       List.length (delivered w' buf) = 4%nat).
Proof.
  rewrite !dht11_read_unfold. cbv zeta. rewrite copy_complete_iff.
  eexists _, _. split; [reflexivity|]. split; [reflexivity|].
  split; [|split].
  - unfold sizeof_uint32_t, EACCES. destruct (user_copy_ok w buf); lia.
  - intros x Hx. simpl.
    destruct Hx as [Hx|Hx].
    + now apply copy_out_below.
    + apply copy_out_above. rewrite u32_bytes_length. lia.
  - intro H. rewrite H. split; [reflexivity|].
    unfold delivered, user_copy_ok in *. simpl env. simpl umem.
    pose proof (copy_out_content (uwritable (env w)) (u32_bytes A (register w))
                  buf (umem (env w))) as C.
    rewrite u32_bytes_length in C. rewrite (C H).
    split; [reflexivity | apply u32_bytes_length].
Qed.

(** C10: open and close return 0 and leave the whole world, the driver's
    variables and holdings included, as it was. *)
Theorem open_and_close_succeed_and_change_nothing
  (i : inode) (fp : file) (w : world) :
  dht11_open i fp w = Ok 0 w /\
  dht11_close i fp w = Ok 0 w.
Proof.
  split; reflexivity.
Qed.

(** ** Probing and removal *)

(** C3: when a step of probe is refused, probe returns after having
    released everything it had acquired, newest first: the calls it made
    are a run of acquisitions (the kinds before the refused step, in
    program order) followed by the releases of the same handles in
    reverse, and the kernel holds for the driver exactly what it held
    before the call. *)
Theorem failed_probe_rolls_back
  (A : arch) (pdev : platform_device) (w : world) (st : step) :
  failing_step pdev w = Some st ->
  exists r w' es,
    dht11_probe A pdev w = Ok r w' /\
    trace (sys w') = trace (sys w) ++ es /\
    es = map Acquire (acquired_of es) ++ map Release (released_of es) /\
    map kind_of (acquired_of es) = firstn (acquired_before st) acquisition_order /\
    released_of es = rev (acquired_of es) /\
    live (sys w') = live (sys w) /\
    env w' = env w.
Proof.
  open_world w. run_driver.
  destruct (find_resource _ _ _) as [r0|]; simpl.
  2:{ intro H; inversion H; subst.
      eexists _, _, []. rewrite app_nil_r. repeat split. }
  destruct rq; simpl.
  2:{ intro H; inversion H; subst.
      eexists _, _, []. rewrite app_nil_r. repeat split. }
  destruct io as [p|]; simpl.
  2:{ intro H; inversion H; subst.
      eexists _, _, _. split; [reflexivity|]. flatten_trace.
      rewrite !remove_first_head. repeat split. }
  destruct al as [d|e]; simpl.
  2:{ intro H; inversion H; subst.
      eexists _, _, _. split; [reflexivity|]. flatten_trace.
      rewrite !remove_first_head. repeat split. }
  destruct ca as [e|]; simpl.
  { intro H; inversion H; subst.
    eexists _, _, _. split; [reflexivity|]. flatten_trace.
    rewrite !remove_first_head. repeat split. }
  destruct cc as [c|e]; simpl.
  2:{ intro H; inversion H; subst.
      eexists _, _, _. split; [reflexivity|]. flatten_trace.
      rewrite !remove_first_head. repeat split. }
  destruct dc as [n|e]; simpl.
  { discriminate. }
  intro H; inversion H; subst.
  eexists _, _, _. split; [reflexivity|]. flatten_trace.
  rewrite !remove_first_head. repeat split.
Qed.

Lemma failed_probe_witness :
  exists r w' es,
    dht11_probe zynq dht11_pdev (boot device_refused 0 full_access) = Ok r w' /\
    trace (sys w') = trace (sys (boot device_refused 0 full_access)) ++ es /\
    es = map Acquire (acquired_of es) ++ map Release (released_of es) /\
    map kind_of (acquired_of es)
      = firstn (acquired_before StepDevice) acquisition_order /\
    released_of es = rev (acquired_of es) /\
    live (sys w') = live (sys (boot device_refused 0 full_access)) /\
    env w' = env (boot device_refused 0 full_access).
Proof.
  exact (failed_probe_rolls_back zynq dht11_pdev
           (boot device_refused 0 full_access) StepDevice eq_refl).
Defined.

(** C5: after a probe in which every step went through, remove returns
    0 having released exactly the six handles that probe acquired, in
    the reverse of the order of acquisition (device node, class,
    character device, device numbers, mapping, memory region), and the
    kernel then holds for the driver what it held before the probe.
    Reads may have happened in between: remove only looks at the
    driver's variables. *)
Theorem remove_releases_what_probe_acquired
  (A : arch) (pdev : platform_device) (w : world) :
  failing_step pdev w = None ->
  exists w1 hs,
    dht11_probe A pdev w = Ok 0 w1 /\
    trace (sys w1) = trace (sys w) ++ map Acquire hs /\
    live (sys w1) = rev hs ++ live (sys w) /\
    map kind_of hs = acquisition_order /\
    map kind_of (rev hs) = release_order /\
    forall w1', drv w1' = drv w1 -> sys w1' = sys w1 ->
      exists w2,
        dht11_remove pdev w1' = Ok 0 w2 /\
        trace (sys w2) = trace (sys w1) ++ map Release (rev hs) /\
        live (sys w2) = live (sys w) /\
        List.length (released_of (map Release (rev hs)))
          = List.length (acquired_of (map Acquire hs)).
Proof.
  open_world w. run_driver.
  destruct (find_resource _ _ _) as [r0|]; simpl; [|discriminate].
  destruct rq; simpl; [|discriminate].
  destruct io as [p|]; simpl; [|discriminate].
  destruct al as [d|e]; simpl; [|discriminate].
  destruct ca as [e|]; simpl; [discriminate|].
  destruct cc as [c|e]; simpl; [|discriminate].
  destruct dc as [n|e]; simpl; [|discriminate].
  intros _.
  eexists _, [_; _; _; _; _; _].
  split; [reflexivity|]. flatten_trace.
  split; [reflexivity|]. split; [reflexivity|].
  split; [reflexivity|]. split; [reflexivity|].
  intros w1' Hd Hs. destruct w1' as [g' s' e']. simpl in Hd, Hs. subst g' s'.
  run_driver. flatten_trace. rewrite !remove_first_head.
  eexists. repeat split.
Qed.

Lemma remove_after_probe_witness :
  exists w1 hs,
    dht11_probe zynq dht11_pdev (boot cooperative 0 full_access) = Ok 0 w1 /\
    trace (sys w1)
      = trace (sys (boot cooperative 0 full_access)) ++ map Acquire hs /\
    live (sys w1) = rev hs ++ live (sys (boot cooperative 0 full_access)) /\
    map kind_of hs = acquisition_order /\
    map kind_of (rev hs) = release_order /\
    forall w1', drv w1' = drv w1 -> sys w1' = sys w1 ->
      exists w2,
        dht11_remove dht11_pdev w1' = Ok 0 w2 /\
        trace (sys w2) = trace (sys w1) ++ map Release (rev hs) /\
        live (sys w2) = live (sys (boot cooperative 0 full_access)) /\
        List.length (released_of (map Release (rev hs)))
          = List.length (acquired_of (map Acquire hs)).
Proof.
  exact (remove_releases_what_probe_acquired zynq dht11_pdev
           (boot cooperative 0 full_access) eq_refl).
Defined.

(** C7: without a memory resource in the device tree, probe returns
    -ENODEV without having called the kernel for anything: no
    reservation, no mapping and no device node are made, the trace and
    the holdings are those from before the call, [base_addr] is
    untouched and [res] is NULL. *)
Theorem probe_without_resource_is_ENODEV
  (A : arch) (pdev : platform_device) (w : world) :
  find_resource (resource_tbl pdev) IORESOURCE_MEM 0 = None ->
  exists w',
    dht11_probe A pdev w = Ok (- ENODEV) w' /\
    trace (sys w') = trace (sys w) /\
    live (sys w') = live (sys w) /\
    base_addr (drv w') = base_addr (drv w) /\
    res (drv w') = None /\
    env w' = env w.
Proof.
  intro H. open_world w. run_driver. rewrite H. simpl.
  eexists. repeat split.
Qed.

Lemma probe_without_resource_witness :
  exists w',
    dht11_probe zynq bare_pdev (boot cooperative 0 full_access)
      = Ok (- ENODEV) w' /\
    trace (sys w') = trace (sys (boot cooperative 0 full_access)) /\
    live (sys w') = live (sys (boot cooperative 0 full_access)) /\
    base_addr (drv w') = base_addr (drv (boot cooperative 0 full_access)) /\
    res (drv w') = None /\
    env w' = env (boot cooperative 0 full_access).
Proof.
  exact (probe_without_resource_is_ENODEV zynq bare_pdev
           (boot cooperative 0 full_access) eq_refl).
Defined.

(** X3: probe never dereferences a NULL [res]: every [res->] of it,
    those of the rollback labels included, comes after the test of
    [res], so that it runs to a return statement from every state and
    with every answer of the kernel. *)
Lemma probe_returns (A : arch) (pdev : platform_device) (w : world) :
  exists r w', dht11_probe A pdev w = Ok r w'.
Proof.
  open_world w. run_driver.
  destruct (find_resource _ _ _) as [r0|]; simpl; [|eauto].
  destruct rq; simpl; [|eauto].
  destruct io as [p|]; simpl; [|eauto].
  destruct al as [d|e]; simpl; [|eauto].
  destruct ca as [e|]; simpl; [eauto|].
  destruct cc as [c|e]; simpl; [|eauto].
  destruct dc as [n|e]; simpl; eauto.
Qed.

(** The return value of probe, step by step: the errno of the refused
    step up to [cdev_add], but 0 when [class_create] or [device_create]
    is refused, because [ret] still holds what [cdev_add] returned. *)
Lemma probe_return_value (A : arch) (pdev : platform_device) (w : world) :
  retval (dht11_probe A pdev w) =
  Some match failing_step pdev w with
       | Some StepResource => - ENODEV
       | Some StepRegion => - ENXIO
       | Some StepIoremap => - ENOMEM
       | Some StepChrdev =>
           match on_alloc_chrdev_region (kern (env w)) with
           | inr e => - Z.pos e
           | inl _ => 0
           end
       | Some StepCdev =>
           match on_cdev_add (kern (env w)) with
           | Some e => - Z.pos e
           | None => 0
           end
       | Some StepClass => 0
       | Some StepDevice => 0
       | None => 0
       end.
Proof.
  open_world w. run_driver.
  destruct (find_resource _ _ _) as [r0|]; simpl; [|reflexivity].
  destruct rq; simpl; [|reflexivity].
  destruct io as [p|]; simpl; [|reflexivity].
  destruct al as [d|e]; simpl; [|reflexivity].
  destruct ca as [e|]; simpl; [reflexivity|].
  destruct cc as [c|e]; simpl; [|reflexivity].
  destruct dc as [n|e]; simpl; reflexivity.
Qed.

(** X1: a refusal at any step up to [cdev_add] is reported as a
    negative errno. *)
Lemma early_failure_returns_negative
  (A : arch) (pdev : platform_device) (w : world) (st : step) :
  failing_step pdev w = Some st ->
  st <> StepClass -> st <> StepDevice ->
  exists r, retval (dht11_probe A pdev w) = Some r /\ r < 0.
Proof.
  intros H Hc Hd. rewrite probe_return_value, H.
  eexists. split; [reflexivity|].
  revert H. unfold failing_step.
  destruct st; try congruence; try (intros; unfold ENODEV, ENXIO, ENOMEM; lia).
  - destruct (find_resource _ _ _); [|discriminate].
    destruct (negb _); [discriminate|].
    destruct (on_ioremap _); [|discriminate].
    destruct (on_alloc_chrdev_region _); [|intros; lia].
    destruct (on_cdev_add _); [discriminate|].
    destruct (IS_ERR _); [discriminate|].
    destruct (IS_ERR _); discriminate.
  - destruct (find_resource _ _ _); [|discriminate].
    destruct (negb _); [discriminate|].
    destruct (on_ioremap _); [|discriminate].
    destruct (on_alloc_chrdev_region _); [|discriminate].
    destruct (on_cdev_add _); [intros; lia|].
    destruct (IS_ERR _); [discriminate|].
    destruct (IS_ERR _); discriminate.
Qed.

Lemma early_failure_witness :
  exists r,
    retval (dht11_probe zynq dht11_pdev (boot ioremap_refused 0 full_access))
      = Some r /\ r < 0.
Proof.
  apply (early_failure_returns_negative zynq dht11_pdev
           (boot ioremap_refused 0 full_access) StepIoremap);
    [reflexivity | discriminate | discriminate].
Defined.

(** A refusal by [class_create] or [device_create] is reported as 0. *)
Lemma late_failure_returns_zero
  (A : arch) (pdev : platform_device) (w : world) (st : step) :
  failing_step pdev w = Some st ->
  st = StepClass \/ st = StepDevice ->
  retval (dht11_probe A pdev w) = Some 0.
Proof.
  intros H [E|E]; subst st; now rewrite probe_return_value, H.
Qed.

(** C1: with a memory resource present and every request granted up to
    [cdev_add], a refusal of [class_create] (and likewise of
    [device_create]) makes probe return 0, not a negative errno. *)
Theorem probe_returns_zero_on_class_or_device_failure :
  failing_step dht11_pdev (boot class_refused 0 full_access) = Some StepClass /\
  retval (dht11_probe zynq dht11_pdev (boot class_refused 0 full_access))
    = Some 0 /\
  failing_step dht11_pdev (boot device_refused 0 full_access) = Some StepDevice /\
  retval (dht11_probe zynq dht11_pdev (boot device_refused 0 full_access))
    = Some 0.
Proof.
  repeat split.
Qed.

(** X2: from a state in which the driver holds nothing, the device node
    exists after probe only if every step went through, and then the
    mapping behind [base_addr] is in place and probe returned 0. *)
Lemma node_implies_mapping
  (A : arch) (pdev : platform_device) (w w' : world) (r : Z) :
  live (sys w) = [] ->
  dht11_probe A pdev w = Ok r w' ->
  node_exists w' = true ->
  mapping_valid w' = true /\ r = 0 /\ failing_step pdev w = None.
Proof.
  open_world w. simpl. intro; subst lv. run_driver.
  unfold node_exists, mapping_valid, holds.
  destruct (find_resource _ _ _) as [r0|]; simpl;
    [|intro H; inversion H; subst; simpl; discriminate].
  destruct rq; simpl; [|intro H; inversion H; subst; simpl; discriminate].
  destruct io as [p|]; simpl;
    [|rewrite ?remove_first_head; intro H; inversion H; subst; simpl; discriminate].
  destruct al as [d|e]; simpl;
    [|rewrite ?remove_first_head; intro H; inversion H; subst; simpl; discriminate].
  destruct ca as [e|]; simpl;
    [rewrite ?remove_first_head; intro H; inversion H; subst; simpl; discriminate|].
  destruct cc as [c|e]; simpl;
    [|rewrite ?remove_first_head; intro H; inversion H; subst; simpl; discriminate].
  destruct dc as [n|e]; simpl;
    [|rewrite ?remove_first_head; intro H; inversion H; subst; simpl; discriminate].
  intro H; inversion H; subst; simpl. intros _.
  rewrite Pos.eqb_refl. repeat split.
Qed.

Lemma node_implies_mapping_witness :
  mapping_valid (world_after (dht11_probe zynq dht11_pdev)
                             (boot cooperative 0 full_access)) = true /\
  0 = 0 /\
  failing_step dht11_pdev (boot cooperative 0 full_access) = None.
Proof.
  apply (node_implies_mapping zynq dht11_pdev
           (boot cooperative 0 full_access)
           (world_after (dht11_probe zynq dht11_pdev)
                        (boot cooperative 0 full_access)) 0);
    vm_compute; reflexivity.
Defined.

(** C2: when [class_create] is refused, probe returns 0 (success) while
    the mapping behind [base_addr] has been torn down; [base_addr] keeps
    the stale address and no device node exists. *)
Theorem probe_succeeds_with_mapping_torn_down :
  exists w',
    dht11_probe zynq dht11_pdev (boot class_refused 0 full_access) = Ok 0 w' /\
    mapping_valid w' = false /\
    base_addr (drv w') = 0xf0940000 /\
    node_exists w' = false /\
    live (sys w') = [].
Proof.
  exists (world_after (dht11_probe zynq dht11_pdev)
                      (boot class_refused 0 full_access)).
  repeat match goal with |- _ /\ _ => split end; vm_compute; reflexivity.
Qed.

(** ** Further properties of the driver *)

(** The state a complete probe ends in. *)
Lemma probe_success_state (A : arch) (pdev : platform_device) (w : world) :
  failing_step pdev w = None ->
  exists r p d c n,
    find_resource (resource_tbl pdev) IORESOURCE_MEM 0 = Some r /\
    on_ioremap (kern (env w)) = Some p /\
    on_alloc_chrdev_region (kern (env w)) = inl d /\
    on_class_create (kern (env w)) = inl c /\
    on_device_create (kern (env w)) = inl n /\
    dht11_probe A pdev w =
    Ok 0 (mk_world
            (mk_globals (Some r) (ulong A (end_ r - start r + 1)) (Z.pos p) d
                        (mk_cdev true d 1) (Ptr (Z.pos c)))
            (mk_ksys
               ([DevNode (Ptr (Z.pos c)) d; DevClass (Ptr (Z.pos c));
                 CharDev d 1; ChrdevRegion d 1; IoMapping (Z.pos p);
                 MemRegion (start r) (ulong A (end_ r - start r + 1))]
                ++ live (sys w))
               (trace (sys w)
                ++ map Acquire
                     [MemRegion (start r) (ulong A (end_ r - start r + 1));
                      IoMapping (Z.pos p); ChrdevRegion d 1; CharDev d 1;
                      DevClass (Ptr (Z.pos c)); DevNode (Ptr (Z.pos c)) d])
               (klog (sys w)
                ++ ["DHT11 module loaded."%string;
                    "DHT11 mapped at virtual address"%string;
                    "DHT11 YOUR HELLO MESSAGE"%string]))
            (env w)).
Proof.
  open_world w. run_driver.
  destruct (find_resource _ _ _) as [r0|]; simpl; [|discriminate].
  destruct rq; simpl; [|discriminate].
  destruct io as [p|]; simpl; [|discriminate].
  destruct al as [d|e]; simpl; [|discriminate].
  destruct ca as [e|]; simpl; [discriminate|].
  destruct cc as [c|e]; simpl; [|discriminate].
  destruct dc as [n|e]; simpl; [|discriminate].
  intros _. exists r0, p, d, c, n. flatten_trace. repeat split.
Qed.

(** What the kernel will answer only depends on the environment. *)
Lemma failing_step_env (pdev : platform_device) (w w' : world) :
  env w' = env w -> failing_step pdev w' = failing_step pdev w.
Proof.
  intro H. unfold failing_step. now rewrite H.
Qed.

(** X5: after a complete probe the driver's variables name everything the
    driver holds: the region of the first memory resource with the size
    in [remap_size] (the number of addresses of the resource when that
    fits an unsigned long), the mapping at [base_addr], the device
    numbers in [dev] (one of them, also recorded in [c_dev]), the class
    in [cl] and the node of that class and number. *)
Theorem complete_probe_records_what_it_holds
  (A : arch) (pdev : platform_device) (w : world) :
  failing_step pdev w = None ->
  exists r w',
    find_resource (resource_tbl pdev) IORESOURCE_MEM 0 = Some r /\
    dht11_probe A pdev w = Ok 0 w' /\
    res (drv w') = Some r /\
    remap_size (drv w') = (end_ r - start r + 1) mod 2 ^ BITS_PER_LONG A /\
    (start r <= end_ r -> end_ r - start r + 1 < 2 ^ BITS_PER_LONG A ->
       remap_size (drv w') = end_ r - start r + 1) /\
    c_dev (drv w') = mk_cdev true (dev (drv w')) 1 /\
    live (sys w') =
      [DevNode (cl (drv w')) (dev (drv w')); DevClass (cl (drv w'));
       CharDev (dev (drv w')) 1; ChrdevRegion (dev (drv w')) 1;
       IoMapping (base_addr (drv w'));
       MemRegion (start r) (remap_size (drv w'))] ++ live (sys w) /\
    IS_ERR (cl (drv w')) = false /\
    base_addr (drv w') <> 0 /\
    mapping_valid w' = true /\
    node_exists w' = true /\
    env w' = env w.
Proof.
  intro H.
  destruct (probe_success_state A pdev w H)
    as (r & p & d & c & n & Hr & Hp & Hd & Hc & Hn & Hrun).
  eexists r, _. split; [exact Hr|]. split; [exact Hrun|].
  unfold mapping_valid, node_exists, holds, ulong. simpl.
  rewrite Pos.eqb_refl.
  repeat split; try discriminate.
  intros Hle Hlt. apply Z.mod_small. lia.
Qed.

Lemma complete_probe_witness :
  exists r w',
    find_resource (resource_tbl dht11_pdev) IORESOURCE_MEM 0 = Some r /\
    dht11_probe zynq dht11_pdev (boot cooperative 0 full_access) = Ok 0 w' /\
    res (drv w') = Some r /\
    remap_size (drv w') = (end_ r - start r + 1) mod 2 ^ BITS_PER_LONG zynq /\
    (start r <= end_ r -> end_ r - start r + 1 < 2 ^ BITS_PER_LONG zynq ->
       remap_size (drv w') = end_ r - start r + 1) /\
    c_dev (drv w') = mk_cdev true (dev (drv w')) 1 /\
    live (sys w') =
      [DevNode (cl (drv w')) (dev (drv w')); DevClass (cl (drv w'));
       CharDev (dev (drv w')) 1; ChrdevRegion (dev (drv w')) 1;
       IoMapping (base_addr (drv w'));
       MemRegion (start r) (remap_size (drv w'))]
      ++ live (sys (boot cooperative 0 full_access)) /\
    IS_ERR (cl (drv w')) = false /\
    base_addr (drv w') <> 0 /\
    mapping_valid w' = true /\
    node_exists w' = true /\
    env w' = env (boot cooperative 0 full_access).
Proof.
  exact (complete_probe_records_what_it_holds zynq dht11_pdev
           (boot cooperative 0 full_access) eq_refl).
Defined.




(** One round of binding and unbinding when the kernel grants
    everything. *)
Lemma bind_unbind_complete (A : arch) (pdev : platform_device) (w : world) :
  failing_step pdev w = None ->
  exists w',
    bind_unbind A pdev w = Ok 0 w' /\
    live (sys w') = live (sys w) /\
    env w' = env w /\
    List.length (trace (sys w')) = (List.length (trace (sys w)) + 12)%nat.
Proof.
  intro H.
  destruct (probe_success_state A pdev w H)
    as (r & p & d & c & n & _ & _ & _ & _ & _ & Hrun).
  unfold bind_unbind, Bind. rewrite Hrun. simpl.
  run_driver. rewrite !remove_first_head.
  eexists. split; [reflexivity|]. simpl.
  repeat split.
  rewrite !length_app. simpl. lia.
Qed.

(** X7: binding and unbinding the device any number of times, with the
    kernel granting everything each time, always succeeds and leaves
    the kernel holding for the driver exactly what it held at the
    start: twelve kernel calls per round, six acquisitions and their six
    releases, and no handle left over. *)
Theorem bind_unbind_cycles_leak_nothing
  (A : arch) (pdev : platform_device) (n : nat) (w : world) :
  failing_step pdev w = None ->
  exists w',
    cycles A pdev n w = Ok 0 w' /\
    live (sys w') = live (sys w) /\
    env w' = env w /\
    List.length (trace (sys w')) = (List.length (trace (sys w)) + 12 * n)%nat.
Proof.
  revert w. induction n as [|n IH]; intros w H.
  - exists w. repeat split. simpl. lia.
  - destruct (bind_unbind_complete A pdev w H) as (w1 & Hrun & Hlive & Henv & Hlen).
    assert (H1 : failing_step pdev w1 = None)
      by (rewrite (failing_step_env pdev w w1 Henv); exact H).
    destruct (IH w1 H1) as (w2 & Hrun2 & Hlive2 & Henv2 & Hlen2).
    exists w2.
    change (cycles A pdev (S n) w)
      with (Bind (bind_unbind A pdev)
              (fun r => if r =? 0 then cycles A pdev n else Return r) w).
    unfold Bind. rewrite Hrun. simpl. rewrite Hrun2.
    repeat split; try congruence. lia.
Qed.

Lemma cycles_witness :
  exists w',
    cycles zynq dht11_pdev 3 (boot cooperative 0 full_access) = Ok 0 w' /\
    live (sys w') = live (sys (boot cooperative 0 full_access)) /\
    env w' = env (boot cooperative 0 full_access) /\
    List.length (trace (sys w'))
      = (List.length (trace (sys (boot cooperative 0 full_access))) + 12 * 3)%nat.
Proof.
  exact (bind_unbind_cycles_leak_nothing zynq dht11_pdev 3
           (boot cooperative 0 full_access) eq_refl).
Defined.

(** X8: after a complete probe, opening the device, reading and closing it
    return 0, 4 and 0, and the four bytes read are those of the 32-bit
    word found at the virtual address that [ioremap] answered, not at
    the physical address of the resource; the session changes neither
    the driver's variables nor what the driver holds. *)
Theorem read_after_probe_delivers_the_mapped_register
  (A : arch) (pdev : platform_device) (i : inode) (fp : file)
  (buf count pos : Z) (w : world) :
  failing_step pdev w = None ->
  user_copy_ok w buf = true ->
  exists p w1 w2,
    on_ioremap (kern (env w)) = Some p /\
    dht11_probe A pdev w = Ok 0 w1 /\
    dht11_open i fp w1 = Ok 0 w1 /\
    dht11_read A fp buf count pos w1 = Ok (4, pos) w2 /\
    dht11_close i fp w2 = Ok 0 w2 /\
    delivered w2 buf = u32_bytes A (mmio (env w) (Z.pos p) mod 2 ^ 32) /\
    drv w2 = drv w1 /\
    sys w2 = sys w1.
Proof.
  intros H Hok.
  destruct (probe_success_state A pdev w H)
    as (r & p & d & c & n & _ & Hp & _ & _ & _ & Hrun).
  eexists p, _, _. split; [exact Hp|]. split; [exact Hrun|].
  split; [reflexivity|].
  rewrite dht11_read_unfold. cbv zeta. rewrite copy_complete_iff.
  unfold user_copy_ok in *. simpl env. rewrite Hok.
  split; [reflexivity|]. split; [reflexivity|].
  unfold delivered, register. cbn [env umem drv base_addr mmio uwritable].
  pose proof (copy_out_content (uwritable (env w))
                (u32_bytes A (mmio (env w) (Z.pos p) mod 2 ^ 32))
                buf (umem (env w))) as C.
  rewrite u32_bytes_length in C. rewrite (C Hok).
  repeat split.
Qed.

Lemma read_after_probe_witness :
  exists p w1 w2,
    on_ioremap (kern (env (boot cooperative 0x2a19 full_access))) = Some p /\
    dht11_probe zynq dht11_pdev (boot cooperative 0x2a19 full_access) = Ok 0 w1 /\
    dht11_open (Inode 1) (File 0) w1 = Ok 0 w1 /\
    dht11_read zynq (File 0) 100 4 0 w1 = Ok (4, 0) w2 /\
    dht11_close (Inode 1) (File 0) w2 = Ok 0 w2 /\
    delivered w2 100
      = u32_bytes zynq
          (mmio (env (boot cooperative 0x2a19 full_access)) (Z.pos p) mod 2 ^ 32) /\
    drv w2 = drv w1 /\
    sys w2 = sys w1.
Proof.
  exact (read_after_probe_delivers_the_mapped_register zynq dht11_pdev
           (Inode 1) (File 0) 100 4 0 (boot cooperative 0x2a19 full_access)
           eq_refl eq_refl).
Defined.

(** The four bytes of a 32-bit value are bytes, and read back in the
    same byte order they give the value. *)
Lemma u32_bytes_round_trip (A : arch) (v : Z) :
  0 <= v < 2 ^ 32 ->
  u32_of_bytes A (u32_bytes A v) = v /\
  Forall (fun b => 0 <= b < 256) (u32_bytes A v).
Proof.
  intro Hv. change (2 ^ 32) with 4294967296 in Hv.
  unfold u32_of_bytes, u32_bytes.
  split.
  - destruct (big_endian A); cbv [rev app]; Z.div_mod_to_equations; lia.
  - destruct (big_endian A); cbv [rev app]; repeat constructor;
      try (apply Z.mod_pos_bound; lia).
Qed.

(** X9: a read whose copy goes through hands over the whole register: the
    four bytes at [buf] are bytes (0..255) and, taken as a [uint32_t] in
    the machine's byte order, are the 32-bit value that was loaded, on a
    little-endian as on a big-endian machine. *)
Theorem read_delivers_the_whole_register
  (A : arch) (fp : file) (buf count pos : Z) (w : world) :
  user_copy_ok w buf = true ->
  exists w',
    dht11_read A fp buf count pos w = Ok (4, pos) w' /\
    u32_of_bytes A (delivered w' buf) = mmio (env w) (base_addr (drv w)) mod 2 ^ 32 /\
    0 <= u32_of_bytes A (delivered w' buf) < 2 ^ 32 /\
    Forall (fun b => 0 <= b < 256) (delivered w' buf).
Proof.
  intro Hok.
  rewrite dht11_read_unfold. cbv zeta. rewrite copy_complete_iff, Hok.
  eexists. split; [reflexivity|].
  unfold delivered, user_copy_ok in *. simpl env. simpl umem.
  pose proof (copy_out_content (uwritable (env w)) (u32_bytes A (register w))
                buf (umem (env w))) as C.
  rewrite u32_bytes_length in C. rewrite (C Hok).
  assert (Hr : 0 <= register w < 2 ^ 32)
    by (unfold register; apply Z.mod_pos_bound; reflexivity).
  destruct (u32_bytes_round_trip A (register w) Hr) as [Hrt Hb].
  rewrite Hrt. repeat split; try exact Hb; apply Hr.
Qed.

Lemma whole_register_witness :
  exists w',
    dht11_read (mk_arch 64 true) (File 0) 100 4 0
      (boot cooperative 0x12345678 full_access) = Ok (4, 0) w' /\
    u32_of_bytes (mk_arch 64 true) (delivered w' 100)
      = mmio (env (boot cooperative 0x12345678 full_access))
             (base_addr (drv (boot cooperative 0x12345678 full_access)))
        mod 2 ^ 32 /\
    0 <= u32_of_bytes (mk_arch 64 true) (delivered w' 100) < 2 ^ 32 /\
    Forall (fun b => 0 <= b < 256) (delivered w' 100).
Proof.
  exact (read_delivers_the_whole_register (mk_arch 64 true) (File 0) 100 4 0
           (boot cooperative 0x12345678 full_access) eq_refl).
Defined.

(** The lookup skips every entry that is not a memory resource. *)
Lemma find_resource_skips (pre post : list resource) (r : resource) :
  Forall (fun x => resource_type x <> IORESOURCE_MEM) pre ->
  resource_type r = IORESOURCE_MEM ->
  find_resource (pre ++ r :: post) IORESOURCE_MEM 0 = Some r.
Proof.
  intros Hpre Hr. induction Hpre as [|x pre Hx _ IH]; simpl.
  - rewrite Hr. now rewrite Z.eqb_refl.
  - apply Z.eqb_neq in Hx. now rewrite Hx.
Qed.

Lemma find_resource_none (rs : list resource) :
  Forall (fun x => resource_type x <> IORESOURCE_MEM) rs ->
  find_resource rs IORESOURCE_MEM 0 = None.
Proof.
  intro H. induction H as [|x rs Hx _ IH]; simpl.
  - reflexivity.
  - apply Z.eqb_neq in Hx. now rewrite Hx.
Qed.

(** X10: probe works on the first memory resource of the device, wherever it
    stands in the resource table: entries of other types before it
    (interrupts, for instance) and any entries after it are ignored.
    Whatever happens later in the probe, [res] is left pointing at that
    resource, and when the reservation is granted the first kernel
    request is for its start address and its size.  A table without any
    memory resource gives -ENODEV. *)
Theorem probe_selects_the_first_memory_resource
  (A : arch) (nm : string) (pre post : list resource) (r : resource)
  (w : world) :
  Forall (fun x => resource_type x <> IORESOURCE_MEM) pre ->
  resource_type r = IORESOURCE_MEM ->
  (exists ret w',
     dht11_probe A (mk_platform_device nm (pre ++ r :: post)) w = Ok ret w' /\
     res (drv w') = Some r /\
     remap_size (drv w') = (end_ r - start r + 1) mod 2 ^ BITS_PER_LONG A /\
     (on_request_mem_region (kern (env w)) = true ->
      exists es,
        trace (sys w')
        = trace (sys w)
          ++ Acquire (MemRegion (start r)
                        ((end_ r - start r + 1) mod 2 ^ BITS_PER_LONG A)) :: es) /\
     (on_request_mem_region (kern (env w)) = false ->
      ret = - ENXIO /\ trace (sys w') = trace (sys w))) /\
  retval (dht11_probe A (mk_platform_device nm pre) w) = Some (- ENODEV).
Proof.
  intros Hpre Hr. split.
  - pose proof (find_resource_skips pre post r Hpre Hr) as Hf.
    open_world w. run_driver. rewrite Hf. unfold ulong. simpl.
    destruct rq; simpl.
    2:{ eexists _, _. split; [reflexivity|]. simpl.
        repeat split; try discriminate. }
    destruct io as [p|]; simpl.
    2:{ eexists _, _. split; [reflexivity|]. simpl. flatten_trace.
        repeat split; try discriminate. intros _. eexists. reflexivity. }
    destruct al as [d|e]; simpl.
    2:{ eexists _, _. split; [reflexivity|]. simpl. flatten_trace.
        repeat split; try discriminate. intros _. eexists. reflexivity. }
    destruct ca as [e|]; simpl.
    { eexists _, _. split; [reflexivity|]. simpl. flatten_trace.
      repeat split; try discriminate. intros _. eexists. reflexivity. }
    destruct cc as [c|e]; simpl.
    2:{ eexists _, _. split; [reflexivity|]. simpl. flatten_trace.
        repeat split; try discriminate. intros _. eexists. reflexivity. }
    destruct dc as [n|e]; simpl.
    + eexists _, _. split; [reflexivity|]. simpl. flatten_trace.
      repeat split; try discriminate. intros _. eexists. reflexivity.
    + eexists _, _. split; [reflexivity|]. simpl. flatten_trace.
      repeat split; try discriminate. intros _. eexists. reflexivity.
  - pose proof (find_resource_none pre Hpre) as Hf.
    open_world w. run_driver. rewrite Hf. reflexivity.
Qed.

Lemma first_memory_resource_witness :
  (exists ret w',
     dht11_probe zynq
       (mk_platform_device "dht11" ([irq_line] ++ reg_window :: [irq_line]))
       (boot cooperative 0 full_access) = Ok ret w' /\
     res (drv w') = Some reg_window /\
     remap_size (drv w')
       = (end_ reg_window - start reg_window + 1) mod 2 ^ BITS_PER_LONG zynq /\
     (on_request_mem_region (kern (env (boot cooperative 0 full_access))) = true ->
      exists es,
        trace (sys w')
        = trace (sys (boot cooperative 0 full_access))
          ++ Acquire (MemRegion (start reg_window)
                        ((end_ reg_window - start reg_window + 1)
                         mod 2 ^ BITS_PER_LONG zynq)) :: es) /\
     (on_request_mem_region (kern (env (boot cooperative 0 full_access))) = false ->
      ret = - ENXIO /\
      trace (sys w') = trace (sys (boot cooperative 0 full_access)))) /\
  retval (dht11_probe zynq (mk_platform_device "dht11" [irq_line])
            (boot cooperative 0 full_access)) = Some (- ENODEV).
Proof.
  apply (probe_selects_the_first_memory_resource zynq "dht11"
           [irq_line] [irq_line] reg_window (boot cooperative 0 full_access)).
  - repeat constructor. vm_compute. discriminate.
  - reflexivity.
Defined.
